(** * C3Tunnel: the periodic control loop of a congestion-controlled tunnel

    A shallow embedding of [src/model/c3-tunnel.cc] (ns-3 module [c3p]):
    the attribute table of [C3Tunnel::GetTypeId], the constructor, and the
    methods [Update], [UpdateInfo], [UpdateRate], [Forward],
    [DoInitialize], the observers and the setters.

    - The arithmetic of C++ [double] is an interface, [DoubleOps].  What is
      proved over the interface holds for IEEE binary64, which is one
      implementation of it (the kernel's primitive floats), and for exact
      rational arithmetic, the idealisation in which the real-number
      property of the estimator is stated.
    - The ECN recorder and the flows belong to other classes; they are
      interfaces too ([EcnRecorder], [C3Flow]).
    - A member function is a function from the tunnel to the tunnel
      afterwards, together with the calls it makes on the collaborators,
      in program order.
    - What the header declares and this file only uses (the key type of
      the flow table, the width of the byte counter, [ScheduleFlow]) is a
      parameter.
    - The trace sources ([Alpha], [Weight], [WeightRequest]) notify
      observers and do not change what is computed; they are left out. *)

From Stdlib Require Import ZArith NArith QArith Qround Floats String List Bool Lia Lqa.
Import ListNotations.

Set Implicit Arguments.
Local Open Scope Z_scope.

(** ** The arithmetic of C++ [double] *)

Class DoubleOps (D : Type) : Type := {
  (** conversion of an integer value to [double] *)
  d_of_Z : Z -> D;
  dadd : D -> D -> D;
  dsub : D -> D -> D;
  dmul : D -> D -> D;
  ddiv : D -> D -> D;
  (** [<=] on doubles *)
  dleb : D -> D -> bool;
  (** conversion of a [double] to [uint64_t]: truncation toward zero when
      the truncated value is representable; C++ leaves the other cases
      undefined, so nothing is assumed about them. *)
  d_to_u64 : D -> Z
}.

Declare Scope double_scope.
Delimit Scope double_scope with D.
Infix "+" := dadd : double_scope.
Infix "-" := dsub : double_scope.
Infix "*" := dmul : double_scope.
Infix "/" := ddiv : double_scope.

(** A decimal literal [n/d], correctly rounded. *)
Definition dlit {D} `{DoubleOps D} (q : Q) : D :=
  (d_of_Z (Qnum q) / d_of_Z (Zpos (Qden q)))%D.

(** ** ns-3 value types used by the tunnel *)

(** [ns3::DataRate] wraps a [uint64_t] number of bits per second. *)
Definition DataRate := Z.

(** [DataRate (uint64_t bps)] applied to a [double]: the implicit
    conversion of the argument. *)
Definition DataRate_of_double {D} `{DoubleOps D} (x : D) : DataRate := d_to_u64 x.

(** [DataRate ("10Mbps")], [("1Mbps")], [("500Mbps")], [("1000Mbps")]. *)
Definition DataRate_Mbps (n : Z) : DataRate := n * 1000000.

Definition GetBitRate (r : DataRate) : Z := r.

(** [std::min] and [std::max] over [DataRate::operator<]. *)
Definition std_min (a b : DataRate) : DataRate := if b <? a then b else a.
Definition std_max (a b : DataRate) : DataRate := if a <? b then b else a.

(** [ns3::Time] at the default resolution: a signed 64-bit count of
    nanoseconds. *)
Definition Time := Z.
Definition Time_us (n : Z) : Time := n * 1000.
Definition Time_Max : Time := 2 ^ 63 - 1.

(** [Time::GetSeconds]: the duration in seconds as a [double].  ns-3
    divides in 64.64 fixed point before it converts; the quotient is taken
    in [double] here.  The interval 0 gives 0.0 either way. *)
Definition GetSeconds {D} `{DoubleOps D} (t : Time) : D :=
  (d_of_Z t / d_of_Z 1000000000)%D.

(** ** Collaborators *)

(** [enum class C3Type], by its underlying integer. *)
Definition C3Type := Z.

Definition Ipv4Address := Z.

(** [C3EcnRecorder], as the tunnel uses it. *)
Class EcnRecorder (D E : Type) : Type := {
  CreateEcnRecorder : Z -> C3Type -> Ipv4Address -> Ipv4Address -> E;
  GetMarkedRatio : E -> D;
  GetMarkedBytes : E -> N;
  Reset : E -> E
}.

(** [C3Flow], as the tunnel uses it. *)
Class C3Flow (D F : Type) : Type := {
  IsFinished : F -> bool;
  C3Flow_UpdateInfo : F -> F;
  GetWeight : F -> D
}.

(** [ns3::Timer]: the delay of the pending expiry, if one is scheduled. *)
Record Timer : Type := { timer_function : bool; timer_delay : option Time }.

(** A packet, as far as the tunnel looks at it. *)
Record Packet : Type := { GetSize : Z }.

(** ** The tunnel *)

Section Tunnel.

Context {D E F : Type}.
Context `{DO : DoubleOps D} `{ER : EcnRecorder D E} `{CF : C3Flow D F}.

(** The key type of [m_flowList] and the width of the unsigned counter
    [m_sentBytes] are declared in the header. *)
Variable K : Type.
Variable sentBytes_bits : Z.

(** Calls the tunnel makes on its collaborators, in program order. *)
Inductive Call : Type :=
| Ecn_GetMarkedRatio
| Ecn_GetMarkedBytes
| Ecn_Reset
| Flow_IsFinished (k : K)
| Flow_UpdateInfo (k : K)
| Flow_GetWeight (k : K)
| Timer_SetFunction
| Timer_Schedule (delay : Time)
| ForwardTarget (p : Packet) (src dst : Ipv4Address) (protocol : Z).

Record C3Tunnel : Type := {
  m_src : Ipv4Address;
  m_dst : Ipv4Address;
  m_alpha : D;
  m_g : D;
  m_weight : D;
  m_weightRequest : D;
  m_rate : DataRate;
  m_rateMax : DataRate;
  m_rateMin : DataRate;
  m_rateThresh : DataRate;
  m_sentBytes : Z;
  m_interval : Time;
  m_timer : Timer;
  m_ecnRecorder : E;
  m_flowList : list (K * F)
}.

Definition set_alpha (a : D) (t : C3Tunnel) : C3Tunnel :=
  {| m_src := m_src t; m_dst := m_dst t; m_alpha := a; m_g := m_g t;
     m_weight := m_weight t; m_weightRequest := m_weightRequest t;
     m_rate := m_rate t; m_rateMax := m_rateMax t; m_rateMin := m_rateMin t;
     m_rateThresh := m_rateThresh t; m_sentBytes := m_sentBytes t;
     m_interval := m_interval t; m_timer := m_timer t;
     m_ecnRecorder := m_ecnRecorder t; m_flowList := m_flowList t |}.

Definition set_g (g : D) (t : C3Tunnel) : C3Tunnel :=
  {| m_src := m_src t; m_dst := m_dst t; m_alpha := m_alpha t; m_g := g;
     m_weight := m_weight t; m_weightRequest := m_weightRequest t;
     m_rate := m_rate t; m_rateMax := m_rateMax t; m_rateMin := m_rateMin t;
     m_rateThresh := m_rateThresh t; m_sentBytes := m_sentBytes t;
     m_interval := m_interval t; m_timer := m_timer t;
     m_ecnRecorder := m_ecnRecorder t; m_flowList := m_flowList t |}.

Definition set_weight (w : D) (t : C3Tunnel) : C3Tunnel :=
  {| m_src := m_src t; m_dst := m_dst t; m_alpha := m_alpha t; m_g := m_g t;
     m_weight := w; m_weightRequest := m_weightRequest t;
     m_rate := m_rate t; m_rateMax := m_rateMax t; m_rateMin := m_rateMin t;
     m_rateThresh := m_rateThresh t; m_sentBytes := m_sentBytes t;
     m_interval := m_interval t; m_timer := m_timer t;
     m_ecnRecorder := m_ecnRecorder t; m_flowList := m_flowList t |}.

Definition set_weightRequest (w : D) (t : C3Tunnel) : C3Tunnel :=
  {| m_src := m_src t; m_dst := m_dst t; m_alpha := m_alpha t; m_g := m_g t;
     m_weight := m_weight t; m_weightRequest := w;
     m_rate := m_rate t; m_rateMax := m_rateMax t; m_rateMin := m_rateMin t;
     m_rateThresh := m_rateThresh t; m_sentBytes := m_sentBytes t;
     m_interval := m_interval t; m_timer := m_timer t;
     m_ecnRecorder := m_ecnRecorder t; m_flowList := m_flowList t |}.

Definition set_rate (r : DataRate) (t : C3Tunnel) : C3Tunnel :=
  {| m_src := m_src t; m_dst := m_dst t; m_alpha := m_alpha t; m_g := m_g t;
     m_weight := m_weight t; m_weightRequest := m_weightRequest t;
     m_rate := r; m_rateMax := m_rateMax t; m_rateMin := m_rateMin t;
     m_rateThresh := m_rateThresh t; m_sentBytes := m_sentBytes t;
     m_interval := m_interval t; m_timer := m_timer t;
     m_ecnRecorder := m_ecnRecorder t; m_flowList := m_flowList t |}.

Definition set_rateMax (r : DataRate) (t : C3Tunnel) : C3Tunnel :=
  {| m_src := m_src t; m_dst := m_dst t; m_alpha := m_alpha t; m_g := m_g t;
     m_weight := m_weight t; m_weightRequest := m_weightRequest t;
     m_rate := m_rate t; m_rateMax := r; m_rateMin := m_rateMin t;
     m_rateThresh := m_rateThresh t; m_sentBytes := m_sentBytes t;
     m_interval := m_interval t; m_timer := m_timer t;
     m_ecnRecorder := m_ecnRecorder t; m_flowList := m_flowList t |}.

Definition set_rateMin (r : DataRate) (t : C3Tunnel) : C3Tunnel :=
  {| m_src := m_src t; m_dst := m_dst t; m_alpha := m_alpha t; m_g := m_g t;
     m_weight := m_weight t; m_weightRequest := m_weightRequest t;
     m_rate := m_rate t; m_rateMax := m_rateMax t; m_rateMin := r;
     m_rateThresh := m_rateThresh t; m_sentBytes := m_sentBytes t;
     m_interval := m_interval t; m_timer := m_timer t;
     m_ecnRecorder := m_ecnRecorder t; m_flowList := m_flowList t |}.

Definition set_rateThresh (r : DataRate) (t : C3Tunnel) : C3Tunnel :=
  {| m_src := m_src t; m_dst := m_dst t; m_alpha := m_alpha t; m_g := m_g t;
     m_weight := m_weight t; m_weightRequest := m_weightRequest t;
     m_rate := m_rate t; m_rateMax := m_rateMax t; m_rateMin := m_rateMin t;
     m_rateThresh := r; m_sentBytes := m_sentBytes t;
     m_interval := m_interval t; m_timer := m_timer t;
     m_ecnRecorder := m_ecnRecorder t; m_flowList := m_flowList t |}.

Definition set_sentBytes (n : Z) (t : C3Tunnel) : C3Tunnel :=
  {| m_src := m_src t; m_dst := m_dst t; m_alpha := m_alpha t; m_g := m_g t;
     m_weight := m_weight t; m_weightRequest := m_weightRequest t;
     m_rate := m_rate t; m_rateMax := m_rateMax t; m_rateMin := m_rateMin t;
     m_rateThresh := m_rateThresh t; m_sentBytes := n;
     m_interval := m_interval t; m_timer := m_timer t;
     m_ecnRecorder := m_ecnRecorder t; m_flowList := m_flowList t |}.

Definition set_interval (i : Time) (t : C3Tunnel) : C3Tunnel :=
  {| m_src := m_src t; m_dst := m_dst t; m_alpha := m_alpha t; m_g := m_g t;
     m_weight := m_weight t; m_weightRequest := m_weightRequest t;
     m_rate := m_rate t; m_rateMax := m_rateMax t; m_rateMin := m_rateMin t;
     m_rateThresh := m_rateThresh t; m_sentBytes := m_sentBytes t;
     m_interval := i; m_timer := m_timer t;
     m_ecnRecorder := m_ecnRecorder t; m_flowList := m_flowList t |}.

Definition set_timer (tm : Timer) (t : C3Tunnel) : C3Tunnel :=
  {| m_src := m_src t; m_dst := m_dst t; m_alpha := m_alpha t; m_g := m_g t;
     m_weight := m_weight t; m_weightRequest := m_weightRequest t;
     m_rate := m_rate t; m_rateMax := m_rateMax t; m_rateMin := m_rateMin t;
     m_rateThresh := m_rateThresh t; m_sentBytes := m_sentBytes t;
     m_interval := m_interval t; m_timer := tm;
     m_ecnRecorder := m_ecnRecorder t; m_flowList := m_flowList t |}.

Definition set_ecnRecorder (e : E) (t : C3Tunnel) : C3Tunnel :=
  {| m_src := m_src t; m_dst := m_dst t; m_alpha := m_alpha t; m_g := m_g t;
     m_weight := m_weight t; m_weightRequest := m_weightRequest t;
     m_rate := m_rate t; m_rateMax := m_rateMax t; m_rateMin := m_rateMin t;
     m_rateThresh := m_rateThresh t; m_sentBytes := m_sentBytes t;
     m_interval := m_interval t; m_timer := m_timer t;
     m_ecnRecorder := e; m_flowList := m_flowList t |}.

Definition set_flowList (l : list (K * F)) (t : C3Tunnel) : C3Tunnel :=
  {| m_src := m_src t; m_dst := m_dst t; m_alpha := m_alpha t; m_g := m_g t;
     m_weight := m_weight t; m_weightRequest := m_weightRequest t;
     m_rate := m_rate t; m_rateMax := m_rateMax t; m_rateMin := m_rateMin t;
     m_rateThresh := m_rateThresh t; m_sentBytes := m_sentBytes t;
     m_interval := m_interval t; m_timer := m_timer t;
     m_ecnRecorder := m_ecnRecorder t; m_flowList := l |}.

(** A member function returning [void]: the tunnel afterwards and the
    collaborator calls made. *)
Definition method : Type := C3Tunnel -> C3Tunnel * list Call.

Definition seq (a b : method) : method :=
  fun t => let '(t1, c1) := a t in
           let '(t2, c2) := b t1 in
           (t2, c1 ++ c2).

Definition assign (f : C3Tunnel -> C3Tunnel) : method := fun t => (f t, []).

(** *** [C3Tunnel::UpdateRate] *)

(** [m_sentBytes * 8]: unsigned arithmetic at the width of the counter. *)
Definition sentBits (t : C3Tunnel) : Z := (m_sentBytes t * 8) mod 2 ^ sentBytes_bits.

(** [double prevRate = m_sentBytes * 8 / m_interval.GetSeconds ();] *)
Definition prevRate (t : C3Tunnel) : D :=
  (d_of_Z (sentBits t) / GetSeconds (m_interval t))%D.

(** [(1 - m_alpha / 2) * prevRate] *)
Definition congestionCandidate (t : C3Tunnel) : D :=
  ((d_of_Z 1 - m_alpha t / d_of_Z 2) * prevRate t)%D.

(** [(1 + m_weight) * prevRate] *)
Definition slowStartCandidate (t : C3Tunnel) : D :=
  ((d_of_Z 1 + m_weight t) * prevRate t)%D.

(** [prevRate + m_weight * DataRate ("10Mbps").GetBitRate ()] *)
Definition avoidanceCandidate (t : C3Tunnel) : D :=
  (prevRate t + m_weight t * d_of_Z (GetBitRate (DataRate_Mbps 10)))%D.

(** [std::max (std::min (rate, m_rateMax), m_rateMin)] *)
Definition clampRate (t : C3Tunnel) (rate : DataRate) : DataRate :=
  std_max (std_min rate (m_rateMax t)) (m_rateMin t).

Definition UpdateRate : method := fun t =>
  if negb (N.eqb (GetMarkedBytes (m_ecnRecorder t)) 0) then
    let rate := DataRate_of_double (congestionCandidate t) in
    let t1 := set_rateThresh rate t in
    (set_rate (clampRate t1 rate) t1, [Ecn_GetMarkedBytes])
  else if m_rate t <? m_rateThresh t then
    let rate := DataRate_of_double (slowStartCandidate t) in
    (set_rate (clampRate t rate) t, [Ecn_GetMarkedBytes])
  else
    let rate := DataRate_of_double (avoidanceCandidate t) in
    (set_rate (clampRate t rate) t, [Ecn_GetMarkedBytes]).

(** *** [C3Tunnel::UpdateInfo] *)

(** The loop over [m_flowList], in the iteration order of the map; [acc]
    is the local [weightRequest].  Every key owns its flow object. *)
Fixpoint refreshFlows (l : list (K * F)) (acc : D) : list (K * F) * D * list Call :=
  match l with
  | [] => ([], acc, [])
  | (k, flow) :: rest =>
      if negb (IsFinished flow) then
        let flow' := C3Flow_UpdateInfo flow in
        let '(rest', acc', calls) := refreshFlows rest (acc + GetWeight flow')%D in
        ((k, flow') :: rest', acc',
         Flow_IsFinished k :: Flow_UpdateInfo k :: Flow_GetWeight k :: calls)
      else
        let '(rest', acc', calls) := refreshFlows rest acc in
        ((k, flow) :: rest', acc', Flow_IsFinished k :: calls)
  end.

(** [(1 - m_g) * m_alpha + m_g * m_ecnRecorder->GetMarkedRatio ()] *)
Definition nextAlpha (t : C3Tunnel) : D :=
  ((d_of_Z 1 - m_g t) * m_alpha t + m_g t * GetMarkedRatio (m_ecnRecorder t))%D.

Definition UpdateInfo : method := fun t =>
  let t1 := set_alpha (nextAlpha t) t in
  let '(flows, weightRequest, calls) := refreshFlows (m_flowList t1) (d_of_Z 0) in
  (set_weightRequest weightRequest (set_flowList flows t1),
   Ecn_GetMarkedRatio :: calls).

(** *** [C3Tunnel::Update] *)

(** [ScheduleFlow] is declared in the header and defined elsewhere. *)
Variable ScheduleFlow : method.

Definition ecnReset : method := fun t =>
  (set_ecnRecorder (Reset (m_ecnRecorder t)) t, [Ecn_Reset]).

Definition timerSchedule : method := fun t =>
  (set_timer {| timer_function := timer_function (m_timer t);
                timer_delay := Some (m_interval t) |} t,
   [Timer_Schedule (m_interval t)]).

Definition Update : method :=
  seq UpdateInfo
  (seq UpdateRate
  (seq ScheduleFlow
  (seq ecnReset
  (seq (assign (set_sentBytes 0))
       timerSchedule)))).

(** *** Observers, setters, forwarding, initialisation *)

Definition GetWeightRequest (t : C3Tunnel) : D := m_weightRequest t.
Definition GetRate (t : C3Tunnel) : DataRate := m_rate t.
Definition SetWeight (weight : D) : method := assign (set_weight weight).
Definition SetRateThresh (rate : DataRate) : method := assign (set_rateThresh rate).

(** [m_sentBytes += packet->GetSize ();] then the forward target. *)
Definition Forward (packet : Packet) (protocol : Z) : method := fun t =>
  (set_sentBytes ((m_sentBytes t + GetSize packet) mod 2 ^ sentBytes_bits) t,
   [ForwardTarget packet (m_src t) (m_dst t) protocol]).


(** *** [C3Tunnel::C3Tunnel] *)

(** The member initialisers; the members they do not name are
    default-constructed ([DataRate ()] is 0 bps, [Time ()] is 0, the map
    is empty).  [Initialize] is scheduled for the current simulation time,
    so it runs once construction is complete. *)
Definition C3Tunnel_ctor (tenantId : Z) (type : C3Type) (src dst : Ipv4Address) : C3Tunnel :=
  {| m_src := src;
     m_dst := dst;
     m_alpha := dlit 1.0;
     m_g := dlit 0.625;
     m_weight := dlit 0.0;
     m_weightRequest := dlit 0.0;
     m_rate := 0;
     m_rateMax := 0;
     m_rateMin := 0;
     m_rateThresh := 0;
     m_sentBytes := 0;
     m_interval := 0;
     m_timer := {| timer_function := false; timer_delay := None |};
     m_ecnRecorder := CreateEcnRecorder tenantId type src dst;
     m_flowList := [] |}.

(** *** [C3Tunnel::GetTypeId]: the attributes *)

Inductive AttributeValue : Type :=
| DoubleValue (v : D)
| TimeValue (v : Time)
| DataRateValue (v : DataRate).

(** [MakeDoubleChecker<double> (min, max)] accepts [min <= v && v <= max]. *)
Definition MakeDoubleChecker (min max : D) (v : AttributeValue) : bool :=
  match v with
  | DoubleValue x => dleb min x && dleb x max
  | _ => false
  end.

(** [MakeTimeChecker (min)] accepts [min <= v && v <= Time::Max ()]. *)
Definition MakeTimeChecker (min : Time) (v : AttributeValue) : bool :=
  match v with
  | TimeValue x => (min <=? x) && (x <=? Time_Max)
  | _ => false
  end.

(** [MakeDataRateChecker ()] accepts every data rate. *)
Definition MakeDataRateChecker (v : AttributeValue) : bool :=
  match v with
  | DataRateValue _ => true
  | _ => false
  end.

Definition MakeDoubleAccessor (set : D -> C3Tunnel -> C3Tunnel)
  (v : AttributeValue) (t : C3Tunnel) : option C3Tunnel :=
  match v with DoubleValue x => Some (set x t) | _ => None end.

Definition MakeTimeAccessor (set : Time -> C3Tunnel -> C3Tunnel)
  (v : AttributeValue) (t : C3Tunnel) : option C3Tunnel :=
  match v with TimeValue x => Some (set x t) | _ => None end.

Definition MakeDataRateAccessor (set : DataRate -> C3Tunnel -> C3Tunnel)
  (v : AttributeValue) (t : C3Tunnel) : option C3Tunnel :=
  match v with DataRateValue x => Some (set x t) | _ => None end.

Record Attribute : Type := {
  attr_name : string;
  attr_help : string;
  attr_initial : AttributeValue;
  attr_accessor : AttributeValue -> C3Tunnel -> option C3Tunnel;
  attr_checker : AttributeValue -> bool
}.

Definition attributes : list Attribute :=
  [ {| attr_name := "Gamma";
       attr_help := "0 < Gamma < 1 is the weight given to new samples against the past in the estimation of alpha.";
       attr_initial := DoubleValue (dlit 1.0 / d_of_Z 16)%D;
       attr_accessor := MakeDoubleAccessor set_g;
       attr_checker := MakeDoubleChecker (dlit 0.0) (dlit 1.0) |};
    {| attr_name := "Interval";
       attr_help := "Interval to execute tunnel update.";
       attr_initial := TimeValue (Time_us 100);
       attr_accessor := MakeTimeAccessor set_interval;
       attr_checker := MakeTimeChecker 0 |};
    {| attr_name := "MaxRate";
       attr_help := "Max data rate of current tunnel.";
       attr_initial := DataRateValue (DataRate_Mbps 1000);
       attr_accessor := MakeDataRateAccessor set_rateMax;
       attr_checker := MakeDataRateChecker |};
    {| attr_name := "MinRate";
       attr_help := "Min data rate of current tunnel.";
       attr_initial := DataRateValue (DataRate_Mbps 1);
       attr_accessor := MakeDataRateAccessor set_rateMin;
       attr_checker := MakeDataRateChecker |};
    {| attr_name := "RateThresh";
       attr_help := "Rate thresh to determin when to start congestion avoidance.";
       attr_initial := DataRateValue (DataRate_Mbps 500);
       attr_accessor := MakeDataRateAccessor set_rateThresh;
       attr_checker := MakeDataRateChecker |} ].

(** [ObjectBase::DoSet]: the value reaches the member only through the
    checker. *)
Definition DoSet (a : Attribute) (v : AttributeValue) (t : C3Tunnel) : option C3Tunnel :=
  if attr_checker a v then attr_accessor a v t else None.

(** [ObjectBase::SetAttributeFailSafe]; [None] is its [false]
    ([SetAttribute] aborts the run there). *)
Definition SetAttributeFailSafe (name : string) (v : AttributeValue) (t : C3Tunnel)
  : option C3Tunnel :=
  match find (fun a => String.eqb (attr_name a) name) attributes with
  | Some a => DoSet a v t
  | None => None
  end.

(** [ObjectBase::ConstructSelf], which [CreateObject] runs on the freshly
    constructed object: every attribute takes the value the caller gives
    for it, and its initial value otherwise. *)
Definition ConstructSelf (given : list (string * AttributeValue)) (t : C3Tunnel) : C3Tunnel :=
  fold_left
    (fun t a =>
       let initial := match DoSet a (attr_initial a) t with Some t' => t' | None => t end in
       match find (fun nv => String.eqb (fst nv) (attr_name a)) given with
       | Some (_, v) => match DoSet a v t with Some t' => t' | None => initial end
       | None => initial
       end)
    attributes t.

(** [CreateObject<C3Tunnel> (tenantId, type, src, dst)] *)
Definition CreateObject (tenantId : Z) (type : C3Type) (src dst : Ipv4Address) : C3Tunnel :=
  ConstructSelf [] (C3Tunnel_ctor tenantId type src dst).

End Tunnel.

Arguments C3Tunnel : clear implicits.
Arguments method : clear implicits.
Arguments AttributeValue : clear implicits.
Arguments Attribute : clear implicits.

(** ** Implementations of the arithmetic *)

(** The value a conversion to [uint64_t] yields: the truncated value when
    it is representable, and whatever the platform does otherwise. *)
Definition to_u64 (truncated : option Z) (undefined : Z) : Z :=
  match truncated with
  | Some z => if (0 <=? z) && (z <? 2 ^ 64) then z else undefined
  | None => undefined
  end.

(** *** IEEE 754 binary64 *)

Definition b64_of_Z (z : Z) : float :=
  SF2Prim (binary_normalize FloatOps.prec FloatOps.emax z 0 false).

(** Truncation toward zero of a finite double. *)
Definition b64_trunc (x : float) : option Z :=
  match Prim2SF x with
  | S754_zero _ => Some 0
  | S754_finite s m e =>
      let mag := if 0 <=? e then Zpos m * 2 ^ e else Zpos m / 2 ^ (- e) in
      Some (if s then - mag else mag)
  | S754_infinity _ => None
  | S754_nan => None
  end.

Definition binary64 (undefined : float -> Z) : DoubleOps float :=
  {| d_of_Z := b64_of_Z;
     dadd := PrimFloat.add;
     dsub := PrimFloat.sub;
     dmul := PrimFloat.mul;
     ddiv := PrimFloat.div;
     dleb := PrimFloat.leb;
     d_to_u64 := fun x => to_u64 (b64_trunc x) (undefined x) |}.

(** Where the conversion is undefined, [b64] yields 0; nothing below
    depends on that choice. *)
#[export] Instance b64 : DoubleOps float := binary64 (fun _ => 0).

(** *** Exact rational arithmetic

    Doubles idealised as the rationals they approximate: no rounding, no
    infinities.  A division by zero has no value here ([Qdiv] gives 0), so
    this implementation speaks for the program only where the divisor is
    not zero. *)

Definition Q_trunc (q : Q) : Z := Z.quot (Qnum q) (Zpos (Qden q)).

Definition exactQ (undefined : Q -> Z) : DoubleOps Q :=
  {| d_of_Z := inject_Z;
     dadd := Qplus;
     dsub := Qminus;
     dmul := Qmult;
     ddiv := Qdiv;
     dleb := Qle_bool;
     d_to_u64 := fun q => to_u64 (Some (Q_trunc q)) (undefined q) |}.

#[export] Instance ideal : DoubleOps Q := exactQ (fun _ => 0).

(** ** Collaborators for concrete runs

    The theorems are proved for every recorder, every flow and every flow
    scheduler; the ones below serve to run the tunnel on concrete inputs. *)

(** Modelled from the spec: the ECN recorder (class [C3EcnRecorder], in a
    file of its own) tallies marked against total bytes per interval,
    reports their ratio, 0 when no traffic occurred, and clears its
    interval counters on [Reset]. *)
Record EcnTally : Type := { markedBytes : N; totalBytes : N }.

#[export] Instance EcnTally_recorder {D} `{DoubleOps D} : EcnRecorder D EcnTally :=
  {| CreateEcnRecorder := fun _ _ _ _ => {| markedBytes := 0; totalBytes := 0 |};
     GetMarkedRatio := fun e =>
       if N.eqb (totalBytes e) 0 then d_of_Z 0
       else (d_of_Z (Z.of_N (markedBytes e)) / d_of_Z (Z.of_N (totalBytes e)))%D;
     GetMarkedBytes := markedBytes;
     Reset := fun _ => {| markedBytes := 0; totalBytes := 0 |} |}.

(** A stand-in for a flow (class [C3Flow] is in a file of its own): it
    reports the weight its last [UpdateInfo] adopted and counts the
    [UpdateInfo] calls it received. *)
Record CountingFlow (D : Type) : Type := {
  flow_finished : bool;
  flow_weight : D;
  flow_demand : D;
  flow_updates : nat
}.

#[export] Instance CountingFlow_flow {D} : C3Flow D (CountingFlow D) :=
  {| IsFinished := fun f => flow_finished f;
     C3Flow_UpdateInfo := fun f =>
       {| flow_finished := flow_finished f;
          flow_weight := flow_demand f;
          flow_demand := flow_demand f;
          flow_updates := S (flow_updates f) |};
     GetWeight := fun f => flow_weight f |}.

(** A stand-in for [ScheduleFlow]: it forwards the given packets. *)
Fixpoint forwardAll {D E F K : Type} (bits : Z) (ps : list Packet)
  : method D E F K :=
  match ps with
  | [] => fun t => (t, [])
  | p :: rest => seq (Forward bits p 6) (forwardAll bits rest)
  end.

(** ** A concrete tunnel

    The end-to-end scenario of the specification: [gamma = 0.5],
    [alpha = 1.0], [weight = 0.1], 125000 bytes sent in an interval of
    100 microseconds, rate 1 Mbit/s below the threshold of 500 Mbit/s, and
    three flows of which the second is finished.  The ECN tally of the
    interval is the argument. *)
Definition scenario {D} `{DoubleOps D} (ecn : EcnTally)
  : C3Tunnel D EcnTally (CountingFlow D) nat :=
  {| m_src := 167772161;
     m_dst := 167772162;
     m_alpha := dlit 1.0;
     m_g := dlit 0.5;
     m_weight := dlit 0.1;
     m_weightRequest := dlit 0.0;
     m_rate := DataRate_Mbps 1;
     m_rateMax := DataRate_Mbps 1000;
     m_rateMin := DataRate_Mbps 1;
     m_rateThresh := DataRate_Mbps 500;
     m_sentBytes := 125000;
     m_interval := Time_us 100;
     m_timer := {| timer_function := true; timer_delay := None |};
     m_ecnRecorder := ecn;
     m_flowList :=
       [ (1%nat, {| flow_finished := false; flow_weight := dlit 0.25;
                    flow_demand := dlit 0.5; flow_updates := 0 |});
         (2%nat, {| flow_finished := true; flow_weight := dlit 4.0;
                    flow_demand := dlit 4.0; flow_updates := 0 |});
         (3%nat, {| flow_finished := false; flow_weight := dlit 1.0;
                    flow_demand := dlit 2.0; flow_updates := 0 |}) ] |}.

Definition no_marks : EcnTally := {| markedBytes := 0; totalBytes := 125000 |}.
Definition some_marks : EcnTally := {| markedBytes := 500; totalBytes := 125000 |}.

Definition all_marked : EcnTally := {| markedBytes := 125000; totalBytes := 125000 |}.

(** Smoothing weights at which rounding could push (1 - g) + g past 1:
    the smallest positive double, half an ulp of 1, thirds and tenths, and
    the largest double below 1. *)
Definition gamma_corners : list float :=
  [ 0x1p-1074; 0x1p-53; 0.0625; 0x1.999999999999ap-4; 0x1.5555555555555p-2;
    0.5; 0.625; 0x1.ccccccccccccdp-1; 0x1.fffffffffffffp-1 ]%float.

Definition TunnelB : Type := C3Tunnel float EcnTally (CountingFlow float) nat.

(** The flow scheduler of the concrete runs forwards one packet. *)
Definition one_packet : list Packet := [ {| GetSize := 1500 |} ].

(** The scenario with [MinRate] set above [MaxRate]; each value passes
    its own checker. *)
Definition inverted_bounds : TunnelB :=
  match SetAttributeFailSafe "MinRate" (DataRateValue (DataRate_Mbps 2000))
          (scenario no_marks) with
  | Some t => t
  | None => scenario no_marks
  end.


(** ** Runs of a tunnel

    What can happen to a tunnel once it is active: a tick, a forwarded
    packet, a call of one of the setters, and what its environment does to
    the recorder and to the flow table. *)
Section Runs.

Context {D E F : Type}.
Context `{DO : DoubleOps D} `{ER : EcnRecorder D E} `{CF : C3Flow D F}.
Variable K : Type.
Variable sentBytes_bits : Z.
Variable ScheduleFlow : method D E F K.

Inductive step : C3Tunnel D E F K -> C3Tunnel D E F K -> Prop :=
| step_Update t :
    step t (fst (Update sentBytes_bits ScheduleFlow t))
| step_Forward packet protocol t :
    step t (fst (Forward sentBytes_bits packet protocol t))
| step_SetWeight weight t :
    step t (fst (SetWeight weight t))
| step_SetRateThresh rate t :
    step t (fst (SetRateThresh rate t))
(** the recorder, shared with the receiving side, tallies the interval *)
| step_record ecn t :
    step t (set_ecnRecorder ecn t)
(** the owner of the tunnel changes the flow table *)
| step_flows flows t :
    step t (set_flowList flows t).

Inductive run : C3Tunnel D E F K -> C3Tunnel D E F K -> Prop :=
| run_refl t : run t t
| run_step t t' t'' : run t t' -> step t' t'' -> run t t''.

(** The loop of [UpdateInfo], entry by entry: what becomes of the entry,
    whether its flow counts, and the calls made on it. *)
Definition refreshed (kf : K * F) : K * F :=
  (fst kf, if IsFinished (snd kf) then snd kf else C3Flow_UpdateInfo (snd kf)).

Definition unfinished (kf : K * F) : bool := negb (IsFinished (snd kf)).

Definition flowCalls (kf : K * F) : list (Call K) :=
  if IsFinished (snd kf) then [Flow_IsFinished (fst kf)]
  else [Flow_IsFinished (fst kf); Flow_UpdateInfo (fst kf); Flow_GetWeight (fst kf)].

(** The bound the rate controller maintains. *)
Definition rate_in_bounds (t : C3Tunnel D E F K) : Prop :=
  m_rateMin t <= m_rate t <= m_rateMax t.

(** A flow scheduler that leaves the rate and its bounds alone. *)
Definition keeps_rates : Prop :=
  forall s : C3Tunnel D E F K,
    m_rate (fst (ScheduleFlow s)) = m_rate s /\
    m_rateMin (fst (ScheduleFlow s)) = m_rateMin s /\
    m_rateMax (fst (ScheduleFlow s)) = m_rateMax s.

End Runs.

Arguments refreshed {D F CF K} kf.
Arguments unfinished {D F CF K} kf.
Arguments flowCalls {D F CF K} kf.

(** ** Sequences of calls, and the members left out above *)

From Stdlib Require Import Permutation Qpower.

Section Sequences.

Context {D E F : Type}.
Context `{DO : DoubleOps D} `{ER : EcnRecorder D E} `{CF : C3Flow D F}.
Variable K : Type.
Variable sentBytes_bits : Z.
Variable ScheduleFlow : method D E F K.

(** [Forward] called on each packet of a list in turn, each with its
    protocol number. *)
Fixpoint forwards (ps : list (Packet * Z)) : method D E F K :=
  match ps with
  | [] => fun t => (t, [])
  | (packet, protocol) :: rest =>
      seq (Forward sentBytes_bits packet protocol) (forwards rest)
  end.





(** *** The object with its route and forward target

    [m_route] is a [Ptr<Ipv4Route>] and [m_forwardTarget] a callback; both
    can be null, and so can [m_ecnRecorder] once [DoDispose] has run.  A
    call through a null callback or pointer has no outcome ([None]). *)
Variable Ipv4Route : Type.
Variable ForwardTargetCallback : Type.

Record C3TunnelObject : Type := {
  members : C3Tunnel D E F K;
  m_route : option Ipv4Route;
  m_forwardTarget : option ForwardTargetCallback;
  m_ecnRecorder_null : bool
}.

(** The object the constructor leaves: nothing wired yet. *)
Definition C3TunnelObject_ctor (tenantId : Z) (type : C3Type) (src dst : Ipv4Address)
  : C3TunnelObject :=
  {| members := C3Tunnel_ctor K tenantId type src dst;
     m_route := None;
     m_forwardTarget := None;
     m_ecnRecorder_null := false |}.

Definition SetRoute (route : option Ipv4Route) (o : C3TunnelObject) : C3TunnelObject :=
  {| members := members o;
     m_route := route;
     m_forwardTarget := m_forwardTarget o;
     m_ecnRecorder_null := m_ecnRecorder_null o |}.

Definition SetForwardTarget (cb : option ForwardTargetCallback) (o : C3TunnelObject)
  : C3TunnelObject :=
  {| members := members o;
     m_route := m_route o;
     m_forwardTarget := cb;
     m_ecnRecorder_null := m_ecnRecorder_null o |}.

(** [m_timer.Cancel (); m_ecnRecorder = 0; m_forwardTarget.Nullify ();
    m_route = 0; m_flowList.clear ();] *)
Definition DoDispose (o : C3TunnelObject) : C3TunnelObject :=
  {| members :=
       set_flowList []
         (set_timer {| timer_function := timer_function (m_timer (members o));
                       timer_delay := None |}
            (members o));
     m_route := None;
     m_forwardTarget := None;
     m_ecnRecorder_null := true |}.

(** The invocation of the forward target. *)
Record TargetCall : Type := {
  call_target : ForwardTargetCallback;
  call_packet : Packet;
  call_src : Ipv4Address;
  call_dst : Ipv4Address;
  call_protocol : Z;
  call_route : option Ipv4Route
}.

(** [Forward] on the object: the bytes are counted, then the target is
    invoked with the route. *)
Definition ForwardObject (packet : Packet) (protocol : Z) (o : C3TunnelObject)
  : option (C3TunnelObject * TargetCall) :=
  match m_forwardTarget o with
  | Some cb =>
      Some ({| members := fst (Forward sentBytes_bits packet protocol (members o));
               m_route := m_route o;
               m_forwardTarget := m_forwardTarget o;
               m_ecnRecorder_null := m_ecnRecorder_null o |},
            {| call_target := cb;
               call_packet := packet;
               call_src := m_src (members o);
               call_dst := m_dst (members o);
               call_protocol := protocol;
               call_route := m_route o |})
  | None => None
  end.

(** [Update] on the object: its first statement reads through
    [m_ecnRecorder]. *)
Definition UpdateObject (o : C3TunnelObject) : option C3TunnelObject :=
  if m_ecnRecorder_null o then None
  else Some {| members := fst (Update sentBytes_bits ScheduleFlow (members o));
               m_route := m_route o;
               m_forwardTarget := m_forwardTarget o;
               m_ecnRecorder_null := false |}.

End Sequences.

Arguments C3TunnelObject : clear implicits.
Arguments TargetCall : clear implicits.



(** The scenario with only its finished flow in the table. *)
Definition scenario_finished : TunnelB :=
  set_flowList
    [ (2%nat, {| flow_finished := true; flow_weight := dlit 4.0;
                 flow_demand := dlit 4.0; flow_updates := 0 |}) ]
    (scenario no_marks).

(** * Properties *)

Section RateController.

Context {D E F : Type}.
Context `{DO : DoubleOps D} `{ER : EcnRecorder D E} `{CF : C3Flow D F}.
Variable K : Type.
Variable sentBytes_bits : Z.

Local Abbreviation tunnel := (C3Tunnel D E F K).

Lemma std_min_spec (a b : DataRate) : std_min a b = Z.min a b.
Proof.
  unfold std_min. destruct (Z.ltb_spec b a); lia.
Qed.

Lemma std_max_spec (a b : DataRate) : std_max a b = Z.max a b.
Proof.
  unfold std_max. destruct (Z.ltb_spec a b); lia.
Qed.

Lemma clampRate_bounds (t : tunnel) (rate : DataRate) :
  m_rateMin t <= m_rateMax t ->
  m_rateMin t <= clampRate t rate <= m_rateMax t.
Proof.
  unfold clampRate. rewrite std_max_spec, std_min_spec. lia.
Qed.

(** Without the precondition the lower bound wins. *)
Lemma clampRate_inverted (t : tunnel) (rate : DataRate) :
  m_rateMax t < m_rateMin t -> clampRate t rate = m_rateMin t.
Proof.
  unfold clampRate. rewrite std_max_spec, std_min_spec. lia.
Qed.

(** The three ways out of [UpdateRate]. *)
Lemma UpdateRate_cases (t : tunnel) :
  fst (UpdateRate sentBytes_bits t) =
    if negb (N.eqb (GetMarkedBytes (m_ecnRecorder t)) 0) then
      let rate := DataRate_of_double (congestionCandidate sentBytes_bits t) in
      set_rate (clampRate t rate) (set_rateThresh rate t)
    else if m_rate t <? m_rateThresh t then
      set_rate (clampRate t (DataRate_of_double (slowStartCandidate sentBytes_bits t))) t
    else
      set_rate (clampRate t (DataRate_of_double (avoidanceCandidate sentBytes_bits t))) t.
Proof.
  unfold UpdateRate.
  destruct (negb _); [reflexivity|].
  destruct (_ <? _); reflexivity.
Qed.

Lemma UpdateRate_calls (t : tunnel) :
  snd (UpdateRate sentBytes_bits t) = [Ecn_GetMarkedBytes K].
Proof.
  unfold UpdateRate.
  destruct (negb _); [reflexivity|].
  destruct (_ <? _); reflexivity.
Qed.

(** What [UpdateRate] leaves alone. *)
Lemma UpdateRate_frame (t : tunnel) :
  let t' := fst (UpdateRate sentBytes_bits t) in
  m_rateMin t' = m_rateMin t /\ m_rateMax t' = m_rateMax t /\
  m_alpha t' = m_alpha t /\ m_g t' = m_g t /\ m_weight t' = m_weight t /\
  m_weightRequest t' = m_weightRequest t /\ m_sentBytes t' = m_sentBytes t /\
  m_interval t' = m_interval t /\ m_ecnRecorder t' = m_ecnRecorder t /\
  m_flowList t' = m_flowList t /\ m_timer t' = m_timer t.
Proof.
  cbv zeta. rewrite UpdateRate_cases.
  destruct (negb _); [cbn; repeat split|].
  destruct (_ <? _); cbn; repeat split.
Qed.

(** C1. On a tick in which the ECN recorder reports marked bytes, and only
    then, whatever alpha is, [UpdateRate] takes the congestion branch: the
    candidate is (1 - alpha/2) * prevRate with
    prevRate = sentBytes * 8 / intervalSeconds (the product in the
    unsigned arithmetic of the counter); the candidate, converted to a
    data rate but not clamped, becomes [rateThresh]; the candidate clamped
    to [rateMin, rateMax] becomes the rate.  With no marked bytes
    [rateThresh] is not assigned. *)
Theorem UpdateRate_congestion_branch (t : tunnel) :
  let t' := fst (UpdateRate sentBytes_bits t) in
  let prevRateBps :=
    (d_of_Z ((m_sentBytes t * 8) mod 2 ^ sentBytes_bits)
       / GetSeconds (m_interval t))%D in
  let candidate :=
    DataRate_of_double ((d_of_Z 1 - m_alpha t / d_of_Z 2) * prevRateBps)%D in
  ((0 < GetMarkedBytes (m_ecnRecorder t))%N ->
     m_rateThresh t' = candidate /\
     m_rate t' = std_max (std_min candidate (m_rateMax t)) (m_rateMin t))
  /\
  (GetMarkedBytes (m_ecnRecorder t) = 0%N ->
     m_rateThresh t' = m_rateThresh t).
Proof.
  cbv zeta. rewrite UpdateRate_cases. split; intros Hm.
  - destruct (N.eqb_spec (GetMarkedBytes (m_ecnRecorder t)) 0) as [H0|H0].
    + rewrite H0 in Hm. lia.
    + cbn. split; reflexivity.
  - rewrite Hm. cbn.
    destruct (_ <? _); reflexivity.
Qed.

(** C2. On a tick in which the ECN recorder reports no marked bytes,
    [UpdateRate] branches on the rate stored before the update (the
    refresh that precedes it in the tick changes neither the rate nor the
    threshold): below [rateThresh] the candidate is
    (1 + weight) * prevRate, otherwise it is prevRate + weight * K with
    K = 10 Mbit/s; the clamped candidate becomes the rate and
    [rateThresh] stays as it was. *)
Theorem UpdateRate_growth_branch (t : tunnel) :
  GetMarkedBytes (m_ecnRecorder t) = 0%N ->
  let t' := fst (UpdateRate sentBytes_bits t) in
  let prevRateBps :=
    (d_of_Z ((m_sentBytes t * 8) mod 2 ^ sentBytes_bits)
       / GetSeconds (m_interval t))%D in
  let slowStart := DataRate_of_double ((d_of_Z 1 + m_weight t) * prevRateBps)%D in
  let avoidance :=
    DataRate_of_double (prevRateBps + m_weight t * d_of_Z 10000000)%D in
  (m_rate t < m_rateThresh t ->
     m_rate t' = std_max (std_min slowStart (m_rateMax t)) (m_rateMin t)) /\
  (m_rateThresh t <= m_rate t ->
     m_rate t' = std_max (std_min avoidance (m_rateMax t)) (m_rateMin t)) /\
  m_rateThresh t' = m_rateThresh t /\
  m_rate (fst (UpdateInfo t)) = m_rate t /\
  m_rateThresh (fst (UpdateInfo t)) = m_rateThresh t.
Proof.
  intros Hm. cbv zeta. rewrite UpdateRate_cases, Hm. cbn [N.eqb negb].
  repeat split.
  - intros Hlt. apply Z.ltb_lt in Hlt. rewrite Hlt. reflexivity.
  - intros Hge. apply Z.ltb_ge in Hge. rewrite Hge. reflexivity.
  - destruct (_ <? _); reflexivity.
  - unfold UpdateInfo. destruct (refreshFlows _ _) as [[? ?] ?]. reflexivity.
  - unfold UpdateInfo. destruct (refreshFlows _ _) as [[? ?] ?]. reflexivity.
Qed.

(** The final assignment of [UpdateRate] on each of its branches. *)
Lemma UpdateRate_clamps (t : tunnel) :
  m_rateMin t <= m_rateMax t ->
  m_rateMin t <= m_rate (fst (UpdateRate sentBytes_bits t)) <= m_rateMax t.
Proof.
  intros Hb. rewrite UpdateRate_cases.
  destruct (negb _).
  - exact (clampRate_bounds t _ Hb).
  - destruct (_ <? _); exact (clampRate_bounds t _ Hb).
Qed.

(** C3. Whatever the candidate is on whichever branch (the conversion of
    a negative, zero or huge double to a data rate included), the rate
    [UpdateRate] stores lies within [rateMin, rateMax], provided
    rateMin <= rateMax. *)
Theorem UpdateRate_rate_clamped (t : tunnel) :
  m_rateMin t <= m_rateMax t ->
  let t' := fst (UpdateRate sentBytes_bits t) in
  m_rateMin t <= m_rate t' <= m_rateMax t /\
  m_rateMin t' = m_rateMin t /\ m_rateMax t' = m_rateMax t.
Proof.
  intros Hb. cbv zeta. split; [exact (UpdateRate_clamps t Hb)|].
  destruct (UpdateRate_frame t) as (Hmin & Hmax & _). split; assumption.
Qed.

End RateController.

Section Refresh.

Context {D E F : Type}.
Context `{DO : DoubleOps D} `{ER : EcnRecorder D E} `{CF : C3Flow D F}.
Variable K : Type.

Local Abbreviation tunnel := (C3Tunnel D E F K).

Lemma refreshFlows_spec (l : list (K * F)) : forall acc : D,
  refreshFlows l acc =
    (map refreshed l,
     fold_left dadd
       (map (fun kf => GetWeight (C3Flow_UpdateInfo (snd kf))) (filter unfinished l)) acc,
     flat_map flowCalls l).
Proof.
  induction l as [|[k flow] rest IH]; intros acc.
  - reflexivity.
  - cbn [refreshFlows map filter flat_map].
    unfold unfinished at 1, refreshed at 1, flowCalls at 1. cbn [fst snd].
    destruct (IsFinished flow); cbn [negb]; rewrite IH; reflexivity.
Qed.

Lemma map_fst_refreshed (l : list (K * F)) : map fst (map refreshed l) = map fst l.
Proof.
  rewrite map_map. apply map_ext. intros [k flow]. reflexivity.
Qed.

Lemma UpdateInfo_unfold (t : tunnel) :
  UpdateInfo t =
    (set_weightRequest
       (fold_left dadd
          (map (fun kf => GetWeight (C3Flow_UpdateInfo (snd kf)))
               (filter unfinished (m_flowList t))) (d_of_Z 0))
       (set_flowList (map refreshed (m_flowList t)) (set_alpha (nextAlpha t) t)),
     Ecn_GetMarkedRatio K :: flat_map flowCalls (m_flowList t)).
Proof.
  unfold UpdateInfo. cbn [m_flowList set_alpha].
  rewrite refreshFlows_spec. reflexivity.
Qed.

(** What [UpdateInfo] leaves alone. *)
Lemma UpdateInfo_frame (t : tunnel) :
  let t' := fst (UpdateInfo t) in
  m_rate t' = m_rate t /\ m_rateThresh t' = m_rateThresh t /\
  m_rateMin t' = m_rateMin t /\ m_rateMax t' = m_rateMax t /\
  m_g t' = m_g t /\ m_weight t' = m_weight t /\
  m_sentBytes t' = m_sentBytes t /\ m_interval t' = m_interval t /\
  m_ecnRecorder t' = m_ecnRecorder t /\ m_timer t' = m_timer t.
Proof.
  cbv zeta. rewrite UpdateInfo_unfold. cbn. repeat split.
Qed.

(** The refreshed estimate, in whichever arithmetic. *)
Lemma UpdateInfo_alpha (t : tunnel) :
  m_alpha (fst (UpdateInfo t)) =
    ((d_of_Z 1 - m_g t) * m_alpha t + m_g t * GetMarkedRatio (m_ecnRecorder t))%D.
Proof.
  rewrite UpdateInfo_unfold. reflexivity.
Qed.

(** C6. One refresh of the flow aggregate stores in [weightRequest] the
    sum, from 0 and in table order, of the weights of the flows that are
    not finished, each weight read after the one [UpdateInfo] call on its
    flow; a finished flow is asked [IsFinished] and nothing else, adds
    nothing, and keeps its entry unchanged; the table keeps all its keys. *)
Theorem UpdateInfo_flow_aggregate (t : tunnel) :
  let t' := fst (UpdateInfo t) in
  let active := filter (fun kf => negb (IsFinished (snd kf))) (m_flowList t) in
  m_weightRequest t' =
    fold_left dadd (map (fun kf => GetWeight (C3Flow_UpdateInfo (snd kf))) active)
              (d_of_Z 0) /\
  m_flowList t' =
    map (fun kf => (fst kf, if IsFinished (snd kf) then snd kf
                            else C3Flow_UpdateInfo (snd kf)))
        (m_flowList t) /\
  map fst (m_flowList t') = map fst (m_flowList t) /\
  snd (UpdateInfo t) =
    Ecn_GetMarkedRatio K ::
    flat_map (fun kf =>
                if IsFinished (snd kf) then [Flow_IsFinished (fst kf)]
                else [Flow_IsFinished (fst kf); Flow_UpdateInfo (fst kf);
                      Flow_GetWeight (fst kf)])
             (m_flowList t).
Proof.
  cbv zeta. rewrite UpdateInfo_unfold. cbn [fst snd].
  repeat split. cbn. apply map_fst_refreshed.
Qed.

End Refresh.

Section Tick.

Context {D E F : Type}.
Context `{DO : DoubleOps D} `{ER : EcnRecorder D E} `{CF : C3Flow D F}.
Variable K : Type.
Variable sentBytes_bits : Z.
Variable ScheduleFlow : method D E F K.

Local Abbreviation tunnel := (C3Tunnel D E F K).
Local Abbreviation Update' := (Update sentBytes_bits ScheduleFlow).

Lemma Update_unfold (t : tunnel) :
  let r1 := UpdateInfo t in
  let r2 := UpdateRate sentBytes_bits (fst r1) in
  let r3 := ScheduleFlow (fst r2) in
  let t3 := fst r3 in
  Update' t =
    (set_timer {| timer_function := timer_function (m_timer t3);
                  timer_delay := Some (m_interval t3) |}
       (set_sentBytes 0 (set_ecnRecorder (Reset (m_ecnRecorder t3)) t3)),
     snd r1 ++ snd r2 ++ snd r3 ++ [Ecn_Reset K; Timer_Schedule K (m_interval t3)]).
Proof.
  cbv zeta. unfold Update, seq, assign, ecnReset, timerSchedule.
  destruct (UpdateInfo t) as [t1 c1]. cbn [fst snd].
  destruct (UpdateRate sentBytes_bits t1) as [t2 c2]. cbn [fst snd].
  destruct (ScheduleFlow t2) as [t3 c3]. reflexivity.
Qed.

(** The rate and threshold [UpdateRate] stores depend on the tunnel only
    through the members the function reads. *)
Lemma UpdateRate_reads (t u : tunnel) :
  m_alpha t = m_alpha u -> m_weight t = m_weight u ->
  m_rate t = m_rate u -> m_rateThresh t = m_rateThresh u ->
  m_rateMin t = m_rateMin u -> m_rateMax t = m_rateMax u ->
  m_sentBytes t = m_sentBytes u -> m_interval t = m_interval u ->
  m_ecnRecorder t = m_ecnRecorder u ->
  m_rate (fst (UpdateRate sentBytes_bits t)) = m_rate (fst (UpdateRate sentBytes_bits u)) /\
  m_rateThresh (fst (UpdateRate sentBytes_bits t))
    = m_rateThresh (fst (UpdateRate sentBytes_bits u)).
Proof.
  intros Ha Hw Hr Hth Hmin Hmax Hs Hi He.
  rewrite !UpdateRate_cases.
  unfold congestionCandidate, slowStartCandidate, avoidanceCandidate,
    prevRate, sentBits, clampRate.
  rewrite Ha, Hw, Hr, Hth, Hs, Hi, He.
  destruct (negb _); cbn; [rewrite Hmin, Hmax; split; reflexivity|].
  destruct (_ <? _); cbn; rewrite Hmin, Hmax, ?Hth; split; reflexivity.
Qed.

(** C7. A tick runs, in this order: the refresh of the congestion estimate
    and of the flow aggregate, the rate computation, reading the byte
    counter and the ECN recorder as the interval left them, the flow
    scheduler, the reset of the ECN recorder, the reset of [sentBytes],
    the rescheduling after one interval.  When it returns, [sentBytes] is
    0 and the rate is the one computed from the counters before their
    reset (the flow scheduler leaving the rate alone). *)
Theorem Update_sequence (t : tunnel) :
  (forall s, m_rate (fst (ScheduleFlow s)) = m_rate s) ->
  let t1 := fst (UpdateInfo t) in
  let t2 := fst (UpdateRate sentBytes_bits t1) in
  let t3 := fst (ScheduleFlow t2) in
  let t' := fst (Update' t) in
  snd (Update' t) =
    snd (UpdateInfo t) ++ snd (UpdateRate sentBytes_bits t1) ++
    snd (ScheduleFlow t2) ++ [Ecn_Reset K; Timer_Schedule K (m_interval t3)] /\
  snd (UpdateRate sentBytes_bits t1) = [Ecn_GetMarkedBytes K] /\
  m_sentBytes t1 = m_sentBytes t /\ m_ecnRecorder t1 = m_ecnRecorder t /\
  m_rate t2 = m_rate (fst (UpdateRate sentBytes_bits (set_alpha (nextAlpha t) t))) /\
  m_rate t' = m_rate t2 /\
  m_ecnRecorder t' = Reset (m_ecnRecorder t3) /\
  m_sentBytes t' = 0 /\
  timer_delay (m_timer t') = Some (m_interval t3).
Proof.
  intros Hsf. cbv zeta.
  pose proof (Update_unfold t) as HU. cbv zeta in HU. rewrite HU. clear HU.
  cbn [fst snd].
  destruct (UpdateInfo_frame t) as (Hr & Hth & Hmin & Hmax & Hg & Hw & Hs & Hi & He & _).
  repeat split.
  - apply UpdateRate_calls.
  - exact Hs.
  - exact He.
  - apply UpdateRate_reads; try assumption.
    rewrite UpdateInfo_alpha. reflexivity.
  - cbn. apply Hsf.
Qed.

Lemma Update_rate_in_bounds (t : tunnel) :
  keeps_rates ScheduleFlow ->
  m_rateMin t <= m_rateMax t ->
  rate_in_bounds (fst (Update' t)) /\
  m_rateMin (fst (Update' t)) = m_rateMin t /\
  m_rateMax (fst (Update' t)) = m_rateMax t.
Proof.
  intros Hsf Hb. unfold rate_in_bounds.
  pose proof (Update_unfold t) as HU. cbv zeta in HU. rewrite HU. clear HU.
  cbn.
  destruct (Hsf (fst (UpdateRate sentBytes_bits (fst (UpdateInfo t)))))
    as (Hr & Hmin & Hmax).
  rewrite Hr, Hmin, Hmax.
  destruct (UpdateInfo_frame t) as (_ & _ & Hmin1 & Hmax1 & _).
  destruct (UpdateRate_frame sentBytes_bits (fst (UpdateInfo t)))
    as (Hmin2 & Hmax2 & _).
  pose proof (UpdateRate_clamps sentBytes_bits (fst (UpdateInfo t))) as Hin.
  rewrite Hmin2, Hmax2, Hmin1, Hmax1 in *. auto.
Qed.

Lemma step_rate_in_bounds (t t' : tunnel) :
  keeps_rates ScheduleFlow ->
  step sentBytes_bits ScheduleFlow t t' ->
  rate_in_bounds t ->
  rate_in_bounds t' /\ m_rateMin t' = m_rateMin t /\ m_rateMax t' = m_rateMax t.
Proof.
  intros Hsf Hstep Hin.
  destruct Hstep as [t|packet protocol t|weight t|rate t|ecn t|flows t];
    try (cbn; auto; fail).
  apply Update_rate_in_bounds; [exact Hsf|]. unfold rate_in_bounds in Hin. lia.
Qed.

(** C4, as the code has it.  Once the first tick has run, the rate lies
    within [rateMin, rateMax] at every later point (ticks, forwarded
    packets, setter calls, changes of the recorder and of the flow table),
    provided rateMin <= rateMax and the flow scheduler leaves the rate and
    its bounds alone.  The constructor stores the rate 0. *)
Theorem rate_in_bounds_from_first_tick (t0 t : tunnel) :
  keeps_rates ScheduleFlow ->
  m_rateMin t0 <= m_rateMax t0 ->
  run sentBytes_bits ScheduleFlow (fst (Update' t0)) t ->
  rate_in_bounds t /\
  (forall tenantId type src dst,
     m_rate (C3Tunnel_ctor K tenantId type src dst : tunnel) = 0).
Proof.
  intros Hsf Hb Hrun. split; [|reflexivity].
  remember (fst (Update' t0)) as t1 eqn:Ht1.
  induction Hrun as [t|t u v Hrun IH Hstep].
  - subst t. apply Update_rate_in_bounds; assumption.
  - apply (step_rate_in_bounds Hsf Hstep). apply IH. exact Ht1.
Qed.

End Tick.

(** ** The congestion estimate in exact arithmetic *)

Section Ideal.

Context {E F : Type}.
Context `{ER : EcnRecorder Q E} `{CF : C3Flow Q F}.
Variable K : Type.

Local Open Scope Q_scope.


(** The factor of the congestion branch is at least one half as long as
    alpha is at most 1. *)
Lemma congestion_factor_at_least_half (alpha : Q) :
  alpha <= 1 -> 1 # 2 <= (d_of_Z 1 - alpha / d_of_Z 2)%D.
Proof.
  intros Ha. cbn [dsub ddiv d_of_Z ideal exactQ].
  change (inject_Z 1) with 1. change (inject_Z 2) with 2.
  unfold Qdiv. change (/ 2) with (1 # 2). lra.
Qed.

End Ideal.

(** ** Construction and configuration, in binary64 *)

Section Binary64.

Context {E F : Type}.
Context `{ER : EcnRecorder float E} `{CF : C3Flow float F}.
Variable K : Type.
Variable sentBytes_bits : Z.

Local Abbreviation tunnel := (C3Tunnel float E F K).

Lemma SFltb_not_SFleb (a b : spec_float) : SFltb a b = true -> SFleb b a = false.
Proof.
  unfold SFltb, SFleb.
  destruct a as [sa|sa| |sa ma ea], b as [sb|sb| |sb mb eb]; cbn;
    try discriminate; try reflexivity;
    try (destruct sa; try discriminate; try reflexivity; fail);
    try (destruct sb; try discriminate; try reflexivity; fail);
    try (destruct sa, sb; try discriminate; reflexivity).
  destruct sa, sb; try discriminate; try reflexivity.
  - rewrite (Z.compare_antisym ea eb).
    destruct (ea ?= eb)%Z; cbn; try discriminate; try reflexivity.
    replace (Pos.compare_cont Eq mb ma) with (CompOpp (Pos.compare_cont Eq ma mb))
      by apply (Pos.compare_cont_antisym ma mb Eq).
    destruct (Pos.compare_cont Eq ma mb); cbn; try discriminate; reflexivity.
  - rewrite (Z.compare_antisym ea eb).
    destruct (ea ?= eb)%Z; cbn; try discriminate; try reflexivity.
    replace (Pos.compare_cont Eq mb ma) with (CompOpp (Pos.compare_cont Eq ma mb))
      by apply (Pos.compare_cont_antisym ma mb Eq).
    destruct (Pos.compare_cont Eq ma mb); cbn; try discriminate; reflexivity.
Qed.

Lemma ltb_not_leb (x y : float) : PrimFloat.ltb x y = true -> PrimFloat.leb y x = false.
Proof.
  rewrite FloatAxioms.ltb_spec, FloatAxioms.leb_spec. apply SFltb_not_SFleb.
Qed.

Lemma SFeqb_irrefl_nan (a : spec_float) : SFeqb a a = false -> a = S754_nan.
Proof.
  unfold SFeqb. destruct a as [s|s| |s m e]; cbn.
  - discriminate.
  - destruct s; discriminate.
  - reflexivity.
  - destruct s; rewrite Z.compare_refl, Pos.compare_cont_refl; discriminate.
Qed.

Lemma Prim2SF_zero : Prim2SF 0 = S754_zero false.
Proof. reflexivity. Qed.

(** A NaN is not above 0. *)
Lemma nan_not_leb (x : float) :
  PrimFloat.eqb x x = false -> PrimFloat.leb 0 x = false.
Proof.
  intros Hnan. rewrite FloatAxioms.eqb_spec in Hnan. rewrite FloatAxioms.leb_spec.
  rewrite (SFeqb_irrefl_nan _ Hnan), Prim2SF_zero. reflexivity.
Qed.

Lemma Gamma_checked (x : float) (t : tunnel) :
  SetAttributeFailSafe "Gamma" (DoubleValue x) t =
    if PrimFloat.leb 0 x && PrimFloat.leb x 1 then Some (set_g x t) else None.
Proof. reflexivity. Qed.

Lemma Interval_checked (i : Time) (t : tunnel) :
  SetAttributeFailSafe "Interval" (TimeValue i) t =
    if (0 <=? i) && (i <=? Time_Max) then Some (set_interval i t) else None.
Proof. reflexivity. Qed.

(** C8, as the code has it.  A gamma below 0 or above 1 (or not a
    number) and a negative interval are refused when the attribute is
    set, never at tick time; the interval 0 passes the checker, whose
    lower bound [Time (0)] is inclusive. *)
Theorem attributes_checked_when_set (t : tunnel) :
  (forall x : float,
     PrimFloat.ltb x 0 = true \/ PrimFloat.ltb 1 x = true \/ PrimFloat.eqb x x = false ->
     SetAttributeFailSafe "Gamma" (DoubleValue x) t = None) /\
  (forall i : Time,
     i < 0 -> SetAttributeFailSafe "Interval" (TimeValue i) t = None) /\
  (forall i : Time,
     0 <= i <= Time_Max ->
     SetAttributeFailSafe "Interval" (TimeValue i) t = Some (set_interval i t)).
Proof.
  split; [|split].
  - intros x Hx. rewrite Gamma_checked.
    destruct Hx as [Hlo|[Hhi|Hnan]].
    + rewrite (ltb_not_leb Hlo). reflexivity.
    + rewrite (ltb_not_leb Hhi), andb_false_r. reflexivity.
    + rewrite (nan_not_leb Hnan). reflexivity.
  - intros i Hi. rewrite Interval_checked.
    apply Z.leb_gt in Hi. rewrite Hi. reflexivity.
  - intros i [Hlo Hhi]. rewrite Interval_checked.
    apply Z.leb_le in Hlo, Hhi. rewrite Hlo, Hhi. reflexivity.
Qed.



End Binary64.

(** ** Concrete runs *)

(** The one-packet scheduler touches [sentBytes] only. *)
Lemma one_packet_keeps_rates :
  keeps_rates (forwardAll 32 one_packet : method float EcnTally (CountingFlow float) nat).
Proof.
  intros s. repeat split.
Defined.

(** Marked bytes in the scenario: the threshold takes the unclamped
    candidate, half of 10 Gbit/s, and the rate is clamped to 1 Gbit/s. *)
Lemma UpdateRate_congestion_branch_witness :
  let t' := fst (UpdateRate 32 (scenario some_marks : TunnelB)) in
  (0 < 500)%N /\ m_rateThresh t' = 5000000000 /\ m_rate t' = 1000000000.
Proof.
  cbv zeta.
  assert (Hm : (0 < GetMarkedBytes (D := float)
                       (m_ecnRecorder (scenario some_marks : TunnelB)))%N)
    by reflexivity.
  destruct (proj1 (UpdateRate_congestion_branch 32 (scenario some_marks : TunnelB)) Hm)
    as [Hth Hr].
  split; [reflexivity|]. split.
  - rewrite Hth. vm_compute. reflexivity.
  - rewrite Hr. vm_compute. reflexivity.
Defined.

(** No marked bytes, rate below the threshold: slow start, clamped to
    1 Gbit/s; the threshold stays at 500 Mbit/s. *)
Lemma UpdateRate_growth_branch_witness :
  let t' := fst (UpdateRate 32 (scenario no_marks : TunnelB)) in
  markedBytes no_marks = 0%N /\ m_rate t' = 1000000000 /\ m_rateThresh t' = 500000000.
Proof.
  cbv zeta.
  assert (Hm : GetMarkedBytes (D := float)
                  (m_ecnRecorder (scenario no_marks : TunnelB)) = 0%N)
    by reflexivity.
  destruct (UpdateRate_growth_branch 32 (scenario no_marks : TunnelB) Hm)
    as (Hslow & _ & Hth & _).
  split; [reflexivity|]. split.
  - rewrite Hslow; [vm_compute; reflexivity|]. reflexivity.
  - rewrite Hth. reflexivity.
Defined.

Lemma UpdateRate_rate_clamped_witness :
  let t' := fst (UpdateRate 32 (scenario some_marks : TunnelB)) in
  1000000 <= 1000000000 /\ 1000000 <= m_rate t' <= 1000000000.
Proof.
  cbv zeta. split; [discriminate|].
  apply (UpdateRate_rate_clamped 32 (scenario some_marks : TunnelB)).
  discriminate.
Defined.

(** A tick, a forwarded packet and another tick. *)
Lemma rate_in_bounds_from_first_tick_witness :
  let tick := Update 32 (forwardAll 32 one_packet) in
  rate_in_bounds
    (fst (tick (fst (Forward 32 {| GetSize := 1500 |} 6
                       (fst (tick (scenario some_marks : TunnelB))))))).
Proof.
  cbv zeta.
  apply (@rate_in_bounds_from_first_tick _ _ _ _ _ _ nat 32
           (forwardAll 32 one_packet) (scenario some_marks : TunnelB)).
  - exact one_packet_keeps_rates.
  - discriminate.
  - eapply run_step; [eapply run_step; [apply run_refl|]|].
    + apply step_Forward.
    + apply step_Update.
Defined.

(** C4 as stated fails: [CreateObject] delivers a tunnel whose rate 0 is
    below the default [MinRate] of 1 Mbit/s, and with [MinRate] above
    [MaxRate] a tick stores a rate above [MaxRate]. *)
Lemma rate_out_of_bounds :
  ~ rate_in_bounds (CreateObject nat 1 0 167772161 167772162 : TunnelB) /\
  ~ rate_in_bounds (fst (Update 32 (forwardAll 32 one_packet) inverted_bounds)).
Proof.
  split; intros [Hlo Hhi].
  - vm_compute in Hlo. apply Hlo. reflexivity.
  - vm_compute in Hhi. apply Hhi. reflexivity.
Qed.


(** The scenario's table: the first and third flows are refreshed once
    and counted with the weights they adopt, the finished second flow is
    neither. *)
Lemma UpdateInfo_flow_aggregate_witness :
  let t' := fst (UpdateInfo (scenario no_marks : TunnelB)) in
  m_weightRequest t' = 2.5%float /\
  map (fun kf => (fst kf, flow_updates (snd kf))) (m_flowList t')
    = [(1, 1); (2, 0); (3, 1)]%nat.
Proof.
  cbv zeta.
  destruct (UpdateInfo_flow_aggregate (scenario no_marks : TunnelB))
    as (Hw & Hl & _).
  split.
  - rewrite Hw. vm_compute. reflexivity.
  - rewrite Hl. reflexivity.
Defined.

Lemma Update_sequence_witness :
  let r := Update 32 (forwardAll 32 one_packet) (scenario some_marks : TunnelB) in
  m_sentBytes (fst r) = 0 /\
  m_rate (fst r) = 1000000000 /\
  snd r =
    [Ecn_GetMarkedRatio nat;
     Flow_IsFinished 1%nat; Flow_UpdateInfo 1%nat; Flow_GetWeight 1%nat;
     Flow_IsFinished 2%nat;
     Flow_IsFinished 3%nat; Flow_UpdateInfo 3%nat; Flow_GetWeight 3%nat;
     Ecn_GetMarkedBytes nat;
     ForwardTarget nat {| GetSize := 1500 |} 167772161 167772162 6;
     Ecn_Reset nat; Timer_Schedule nat 100000].
Proof.
  cbv zeta.
  destruct (@Update_sequence _ _ _ _ _ _ nat 32 (forwardAll 32 one_packet)
              (scenario some_marks : TunnelB) (fun s => eq_refl))
    as (Hcalls & _ & _ & _ & Hr2 & Hr & _ & Hs & _).
  split; [exact Hs|]. split.
  - rewrite Hr, Hr2. vm_compute. reflexivity.
  - rewrite Hcalls. reflexivity.
Defined.

(** The scenario of the specification, end to end: no marks, so alpha
    halves, the slow-start candidate of 11 Gbit/s is clamped to
    [MaxRate], and the flow aggregate asks for 0.5 + 2.0. *)
Example scenario_without_congestion :
  let t' := fst (Update 32 (forwardAll 32 one_packet) (scenario no_marks : TunnelB)) in
  m_alpha t' = 0.5%float /\ m_rate t' = 1000000000 /\
  m_rateThresh t' = 500000000 /\ m_weightRequest t' = 2.5%float /\
  m_sentBytes t' = 0.
Proof.
  vm_compute. repeat split.
Qed.

(** In binary64, at the corner alpha = ratio = 1 where rounding could
    leave [0,1], the refreshed estimate is 1 for each of the weights of
    [gamma_corners]. *)
Example alpha_stays_in_range_at_corners :
  forallb (fun g => PrimFloat.eqb (nextAlpha (set_g g (scenario all_marked : TunnelB))) 1)
          gamma_corners = true.
Proof.
  vm_compute. reflexivity.
Qed.

(** C8 as stated fails: the interval 0 and the gammas 0 and 1 pass their
    checkers, and with the interval 0 the division gives infinity. *)
Lemma zero_interval_accepted :
  let t : TunnelB := scenario no_marks in
  SetAttributeFailSafe "Interval" (TimeValue 0) t = Some (set_interval 0 t) /\
  SetAttributeFailSafe "Gamma" (DoubleValue 1%float) t = Some (set_g 1%float t) /\
  SetAttributeFailSafe "Gamma" (DoubleValue 0%float) t = Some (set_g 0%float t) /\
  prevRate 32 (set_interval 0 t) = infinity.
Proof.
  cbv zeta. repeat split.
Qed.

Lemma attributes_checked_when_set_witness :
  let t : TunnelB := scenario no_marks in
  PrimFloat.ltb 1 2 = true /\
  SetAttributeFailSafe "Gamma" (DoubleValue 2%float) t = None /\
  SetAttributeFailSafe "Interval" (TimeValue (-1)) t = None.
Proof.
  cbv zeta. split; [reflexivity|]. split.
  - apply (proj1 (attributes_checked_when_set (scenario no_marks : TunnelB))).
    right; left; reflexivity.
  - apply (proj1 (proj2 (attributes_checked_when_set (scenario no_marks : TunnelB)))).
    reflexivity.
Defined.

(** * Further properties of the code *)

Section Forwarding.

Context {D E F : Type}.
Context `{DO : DoubleOps D} `{ER : EcnRecorder D E} `{CF : C3Flow D F}.
Variable K : Type.
Variable sentBytes_bits : Z.

Local Abbreviation tunnel := (C3Tunnel D E F K).

Lemma forwards_cons (packet : Packet) (protocol : Z) (rest : list (Packet * Z))
  (t : tunnel) :
  forwards sentBytes_bits ((packet, protocol) :: rest) t =
    (fst (forwards sentBytes_bits rest
            (fst (Forward sentBytes_bits packet protocol t))),
     ForwardTarget K packet (m_src t) (m_dst t) protocol ::
     snd (forwards sentBytes_bits rest
            (fst (Forward sentBytes_bits packet protocol t)))).
Proof.
  cbn [forwards]. unfold seq. cbn [Forward fst snd].
  destruct (forwards sentBytes_bits rest _) as [t2 c2]. reflexivity.
Qed.

(** X1. Forwarding a list of packets adds their sizes to the byte counter,
    modulo the width of the counter, invokes the forward target once per
    packet, in order, with the tunnel's source and destination, and
    changes nothing else that the rate controller reads. *)
Theorem forwards_accumulate (ps : list (Packet * Z)) (t : tunnel) :
  let r := forwards sentBytes_bits ps t in
  (ps <> [] ->
   m_sentBytes (fst r) =
     (m_sentBytes t + fold_right Z.add 0 (map (fun pp => GetSize (fst pp)) ps))
       mod 2 ^ sentBytes_bits) /\
  snd r = map (fun pp => ForwardTarget K (fst pp) (m_src t) (m_dst t) (snd pp)) ps /\
  m_rate (fst r) = m_rate t /\ m_rateThresh (fst r) = m_rateThresh t /\
  m_alpha (fst r) = m_alpha t /\ m_weight (fst r) = m_weight t /\
  m_interval (fst r) = m_interval t /\ m_ecnRecorder (fst r) = m_ecnRecorder t /\
  m_src (fst r) = m_src t /\ m_dst (fst r) = m_dst t.
Proof.
  cbv zeta. revert t.
  induction ps as [|[packet protocol] rest IH]; intros t.
  - split; [intros H; contradiction H; reflexivity|]. cbn. repeat split.
  - rewrite forwards_cons. cbn [fst snd map fold_right].
    destruct (IH (fst (Forward sentBytes_bits packet protocol t)))
      as (Hs & Hc & Hr & Hth & Ha & Hw & Hi & He & Hsrc & Hdst).
    cbn [Forward fst set_sentBytes m_sentBytes m_rate m_rateThresh m_alpha
         m_weight m_interval m_ecnRecorder m_src m_dst] in *.
    split; [|repeat split; try assumption].
    + intros _. destruct rest as [|pp rest'].
      * cbn. rewrite Z.add_0_r. reflexivity.
      * rewrite Hs by discriminate.
        rewrite Zplus_mod_idemp_l. f_equal. cbn [map fold_right]. lia.
    + rewrite Hc. reflexivity.
Qed.

End Forwarding.

Section RateControllerEdges.

Context {D E F : Type}.
Context `{DO : DoubleOps D} `{ER : EcnRecorder D E} `{CF : C3Flow D F}.
Variable K : Type.
Variable sentBytes_bits : Z.

Local Abbreviation tunnel := (C3Tunnel D E F K).

(** X2. With MaxRate below MinRate, which the attribute checkers accept,
    [UpdateRate] stores MinRate as the rate on every branch, whatever was
    sent and whatever the recorder reports: the outer [std::max] wins. *)
Theorem UpdateRate_inverted_bounds (t : tunnel) :
  m_rateMax t < m_rateMin t ->
  m_rate (fst (UpdateRate sentBytes_bits t)) = m_rateMin t.
Proof.
  intros Hinv. rewrite UpdateRate_cases.
  destruct (negb _).
  - exact (clampRate_inverted t _ Hinv).
  - destruct (_ <? _); exact (clampRate_inverted t _ Hinv).
Qed.

(** After the congestion branch the rate is below the new threshold
    exactly when the candidate exceeded MaxRate. *)
Lemma congestion_rate_below_thresh (t : tunnel) :
  m_rateMin t <= m_rateMax t ->
  (0 < GetMarkedBytes (m_ecnRecorder t))%N ->
  let t1 := fst (UpdateRate sentBytes_bits t) in
  (m_rate t1 <? m_rateThresh t1) = (m_rateMax t <? m_rateThresh t1) /\
  m_rateThresh t1 = DataRate_of_double (congestionCandidate sentBytes_bits t).
Proof.
  intros Hb Hm. cbv zeta. rewrite UpdateRate_cases.
  destruct (N.eqb_spec (GetMarkedBytes (m_ecnRecorder t)) 0) as [H0|H0];
    [rewrite H0 in Hm; lia|].
  cbn. split; [|reflexivity].
  unfold clampRate. rewrite std_max_spec, std_min_spec.
  set (c := DataRate_of_double (congestionCandidate sentBytes_bits t)).
  destruct (Z.ltb_spec (m_rateMax t) c);
    [apply Z.ltb_lt | apply Z.ltb_ge]; lia.
Qed.

(** X3. The interval after a congestion event, if it carries no marks:
    because the threshold took the unclamped candidate while the rate took
    the clamped one, [UpdateRate] grows the rate multiplicatively (slow
    start) only if the congestion candidate had exceeded MaxRate, and
    additively otherwise.  Here [ecn] and [sent] are the recorder and the
    byte counter of the second interval, and rateMin <= rateMax. *)
Theorem growth_after_congestion (t : tunnel) (ecn : E) (sent : Z) :
  m_rateMin t <= m_rateMax t ->
  (0 < GetMarkedBytes (m_ecnRecorder t))%N ->
  GetMarkedBytes ecn = 0%N ->
  let candidate := DataRate_of_double (congestionCandidate sentBytes_bits t) in
  let t1 := set_sentBytes sent
              (set_ecnRecorder ecn (fst (UpdateRate sentBytes_bits t))) in
  let t2 := fst (UpdateRate sentBytes_bits t1) in
  m_rateThresh t2 = candidate /\
  m_rate t2 =
    clampRate t
      (DataRate_of_double
         (if m_rateMax t <? candidate
          then slowStartCandidate sentBytes_bits t1
          else avoidanceCandidate sentBytes_bits t1)).
Proof.
  intros Hb Hm H0. cbv zeta.
  destruct (congestion_rate_below_thresh t Hb Hm) as [Hlt Hth].
  cbv zeta in Hlt, Hth.
  destruct (UpdateRate_frame sentBytes_bits t) as (Hmin & Hmax & _).
  cbv zeta in Hmin, Hmax.
  set (u := fst (UpdateRate sentBytes_bits t)) in *.
  rewrite (UpdateRate_cases sentBytes_bits (set_sentBytes sent (set_ecnRecorder ecn u))).
  cbn [m_ecnRecorder set_sentBytes set_ecnRecorder m_rate m_rateThresh].
  rewrite H0. cbn [N.eqb negb].
  rewrite Hlt, Hth.
  unfold clampRate.
  cbn [m_rateMax m_rateMin set_sentBytes set_ecnRecorder].
  rewrite Hmin, Hmax.
  destruct (m_rateMax t <? DataRate_of_double (congestionCandidate sentBytes_bits t));
    cbn [m_rateThresh m_rate set_rate set_sentBytes set_ecnRecorder];
    rewrite Hth; split; reflexivity.
Qed.

End RateControllerEdges.

Section FlowAggregateEdges.

Context {D E F : Type}.
Context `{DO : DoubleOps D} `{ER : EcnRecorder D E} `{CF : C3Flow D F}.
Variable K : Type.

Local Abbreviation tunnel := (C3Tunnel D E F K).

Lemma all_finished_filter (l : list (K * F)) :
  (forall kf, In kf l -> IsFinished (snd kf) = true) ->
  filter unfinished l = [] /\ map refreshed l = l /\
  flat_map flowCalls l = map (fun kf => Flow_IsFinished (fst kf)) l.
Proof.
  induction l as [|[k flow] rest IH]; intros Hall.
  - repeat split.
  - assert (Hk : IsFinished flow = true) by exact (Hall (k, flow) (or_introl eq_refl)).
    destruct IH as (Hf & Hm & Hc); [intros kf Hin; apply Hall; right; exact Hin|].
    cbn [filter map flat_map]. unfold unfinished at 1, refreshed at 1, flowCalls at 1.
    cbn [fst snd]. rewrite Hk. cbn [negb app].
    rewrite Hf, Hm, Hc. repeat split.
Qed.

(** X4. When the flow table is empty or all its flows are finished, one
    refresh stores the weight request 0.0, leaves the table as it was, and
    asks each flow [IsFinished] and nothing else. *)
Theorem UpdateInfo_no_active_flow (t : tunnel) :
  (forall kf, In kf (m_flowList t) -> IsFinished (snd kf) = true) ->
  m_weightRequest (fst (UpdateInfo t)) = d_of_Z 0 /\
  m_flowList (fst (UpdateInfo t)) = m_flowList t /\
  snd (UpdateInfo t) =
    Ecn_GetMarkedRatio K :: map (fun kf => Flow_IsFinished (fst kf)) (m_flowList t).
Proof.
  intros Hall. rewrite UpdateInfo_unfold. cbn [fst snd].
  destruct (all_finished_filter (m_flowList t) Hall) as (Hf & Hm & Hc).
  rewrite Hf, Hm, Hc. repeat split.
Qed.

End FlowAggregateEdges.

Section Attributes.

Context {D E F : Type}.
Context `{DO : DoubleOps D} `{ER : EcnRecorder D E} `{CF : C3Flow D F}.
Variable K : Type.

Local Abbreviation tunnel := (C3Tunnel D E F K).


End Attributes.

Section Lifecycle.

Context {D E F : Type}.
Context `{DO : DoubleOps D} `{ER : EcnRecorder D E} `{CF : C3Flow D F}.
Variable K : Type.
Variable sentBytes_bits : Z.
Variable ScheduleFlow : method D E F K.

Local Abbreviation tunnel := (C3Tunnel D E F K).



End Lifecycle.

Section Wiring.

Context {D E F : Type}.
Context `{DO : DoubleOps D} `{ER : EcnRecorder D E} `{CF : C3Flow D F}.
Variable K : Type.
Variable sentBytes_bits : Z.
Variable ScheduleFlow : method D E F K.
Variable Ipv4Route : Type.
Variable ForwardTargetCallback : Type.

Local Abbreviation object := (C3TunnelObject D E F K Ipv4Route ForwardTargetCallback).

(** X7. [Forward] has an outcome exactly when a forward target is set.
    It has none on the object the constructor leaves; once a target is
    set, the target is invoked with the packet, the tunnel's source and
    destination, the protocol and the route set last, and the packet's
    size is added to the byte counter. *)
Theorem Forward_needs_target (packet : Packet) (protocol : Z) (o : object) :
  (ForwardObject sentBytes_bits packet protocol o = None <->
   m_forwardTarget o = None) /\
  (forall tenantId type src dst,
     ForwardObject sentBytes_bits packet protocol
       (C3TunnelObject_ctor K Ipv4Route ForwardTargetCallback tenantId type src dst
        : object)
     = None) /\
  (forall cb route1 route2,
     exists o',
       ForwardObject sentBytes_bits packet protocol
         (SetRoute route2 (SetRoute route1 (SetForwardTarget (Some cb) o)))
       = Some (o', {| call_target := cb; call_packet := packet;
                      call_src := m_src (members o); call_dst := m_dst (members o);
                      call_protocol := protocol; call_route := route2 |}) /\
       m_sentBytes (members o') =
         (m_sentBytes (members o) + GetSize packet) mod 2 ^ sentBytes_bits /\
       m_forwardTarget o' = Some cb /\ m_route o' = route2).
Proof.
  split; [|split].
  - unfold ForwardObject. destruct (m_forwardTarget o); split;
      intros H; try discriminate; reflexivity.
  - reflexivity.
  - intros cb route1 route2. eexists. split; [reflexivity|].
    cbn. repeat split.
Qed.

(** X8. [DoDispose] cancels the pending tick, empties the flow table and
    nulls the route, the forward target and the recorder, whatever the
    object was; after it neither [Forward] nor [Update] has an outcome,
    the rate and the estimate are as they were, and a second [DoDispose]
    changes nothing. *)
Theorem DoDispose_quiesces (o : object) (packet : Packet) (protocol : Z) :
  let o' := DoDispose o in
  timer_delay (m_timer (members o')) = None /\
  m_flowList (members o') = [] /\
  m_route o' = None /\ m_forwardTarget o' = None /\
  ForwardObject sentBytes_bits packet protocol o' = None /\
  UpdateObject sentBytes_bits ScheduleFlow o' = None /\
  m_rate (members o') = m_rate (members o) /\
  m_alpha (members o') = m_alpha (members o) /\
  DoDispose o' = o'.
Proof.
  cbv zeta. repeat split.
Qed.

End Wiring.

(** ** The control law in exact arithmetic *)

Section IdealControl.

Context {E F : Type}.
Context `{ER : EcnRecorder Q E} `{CF : C3Flow Q F}.
Variable K : Type.
Variable sentBytes_bits : Z.
Variable ScheduleFlow : method Q E F K.

Local Abbreviation tunnel := (C3Tunnel Q E F K).

Local Open Scope Q_scope.





End IdealControl.

Section IdealIdle.

Context {E F : Type}.
Context `{ER : EcnRecorder Q E} `{CF : C3Flow Q F}.
Variable K : Type.
Variable sentBytes_bits : Z.

Local Abbreviation tunnel := (C3Tunnel Q E F K).




End IdealIdle.

Section IdealEstimate.

Context {E F : Type}.
Context `{ER : EcnRecorder Q E} `{CF : C3Flow Q F}.
Variable K : Type.
Variable sentBytes_bits : Z.
Variable ScheduleFlow : method Q E F K.

Local Abbreviation tunnel := (C3Tunnel Q E F K).

Local Open Scope Q_scope.






End IdealEstimate.

Section IdealAggregate.

Context {E F : Type}.
Context `{ER : EcnRecorder Q E} `{CF : C3Flow Q F}.
Variable K : Type.

Local Abbreviation tunnel := (C3Tunnel Q E F K).

Local Open Scope Q_scope.

(** The accumulator of the loop, from [acc]. *)
Local Abbreviation requested l acc :=
  (fold_left Qplus
     (map (fun kf : K * F => GetWeight (C3Flow_UpdateInfo (snd kf)))
          (filter unfinished l)) acc).





End IdealAggregate.

Section Defaults.

Context {E F : Type}.
Context `{ER : EcnRecorder float E} `{CF : C3Flow float F}.
Variable K : Type.

Local Abbreviation tunnel := (C3Tunnel float E F K).

(** X14. Every registered attribute's initial value passes the
    attribute's own checker, so attribute construction stores all five
    defaults whatever the constructor arguments are: gamma 1/16, interval
    100 us, MinRate 1 Mbit/s <= RateThresh 500 Mbit/s <= MaxRate
    1000 Mbit/s; the members no attribute addresses stay as the
    constructor set them. *)
Theorem defaults_pass_their_checkers :
  (forall a : Attribute float E F K,
     In a (attributes K) -> attr_checker a (attr_initial a) = true) /\
  (forall tenantId type src dst,
     let t : tunnel := CreateObject K tenantId type src dst in
     m_g t = 0.0625%float /\ m_interval t = 100000 /\
     m_rateMin t = 1000000 /\ m_rateThresh t = 500000000 /\
     m_rateMax t = 1000000000 /\
     m_alpha t = 1%float /\ m_rate t = 0 /\ m_sentBytes t = 0 /\
     m_flowList t = [] /\ m_src t = src /\ m_dst t = dst /\
     m_ecnRecorder t = CreateEcnRecorder tenantId type src dst).
Proof.
  split.
  - intros a Hin. cbn [attributes In] in Hin.
    destruct Hin as [<-|[<-|[<-|[<-|[<-|[]]]]]]; reflexivity.
  - intros tenantId type src dst. cbv zeta. repeat split.
Qed.

End Defaults.

(** ** Concrete runs of the further properties *)



(** Two packets on a counter of 32 bits that is about to wrap. *)
Lemma forwards_accumulate_witness :
  let t : TunnelB := set_sentBytes 4294967000 (scenario no_marks) in
  let r := forwards 32 [({| GetSize := 1500 |}, 6); ({| GetSize := 4000 |}, 17)] t in
  m_sentBytes (fst r) = 5204 /\
  snd r = [ForwardTarget nat {| GetSize := 1500 |} 167772161 167772162 6;
           ForwardTarget nat {| GetSize := 4000 |} 167772161 167772162 17].
Proof.
  cbv zeta.
  destruct (forwards_accumulate 32
              [({| GetSize := 1500 |}, 6); ({| GetSize := 4000 |}, 17)]
              (set_sentBytes 4294967000 (scenario no_marks : TunnelB)))
    as (Hs & Hc & _).
  split.
  - rewrite Hs by discriminate. reflexivity.
  - rewrite Hc. reflexivity.
Defined.

Lemma UpdateRate_inverted_bounds_witness :
  m_rateMax inverted_bounds < m_rateMin inverted_bounds /\
  m_rate (fst (UpdateRate 32 inverted_bounds)) = 2000000000.
Proof.
  assert (H : m_rateMax inverted_bounds < m_rateMin inverted_bounds) by reflexivity.
  split; [exact H|].
  rewrite (UpdateRate_inverted_bounds 32 inverted_bounds H). reflexivity.
Defined.

(** The congestion candidate of the scenario, 5 Gbit/s, exceeds MaxRate:
    the next interval, without marks, is in slow start. *)
Lemma growth_after_congestion_witness :
  let t1 := set_sentBytes 1000
              (set_ecnRecorder no_marks (fst (UpdateRate 32 (scenario some_marks : TunnelB)))) in
  m_rateThresh (fst (UpdateRate 32 t1)) = 5000000000 /\
  m_rate (fst (UpdateRate 32 t1)) = 88000000.
Proof.
  cbv zeta.
  assert (Hb : m_rateMin (scenario some_marks : TunnelB)
               <= m_rateMax (scenario some_marks : TunnelB)) by discriminate.
  assert (Hm : (0 < GetMarkedBytes (D := float)
                       (m_ecnRecorder (scenario some_marks : TunnelB)))%N)
    by reflexivity.
  assert (H0 : GetMarkedBytes (D := float) no_marks = 0%N) by reflexivity.
  destruct (growth_after_congestion 32 (scenario some_marks : TunnelB) no_marks 1000
              Hb Hm H0) as [Hth Hr].
  split.
  - rewrite Hth. vm_compute. reflexivity.
  - rewrite Hr. vm_compute. reflexivity.
Defined.

Lemma UpdateInfo_no_active_flow_witness :
  m_weightRequest (fst (UpdateInfo scenario_finished)) = 0%float /\
  snd (UpdateInfo scenario_finished) = [Ecn_GetMarkedRatio nat; Flow_IsFinished 2%nat].
Proof.
  assert (Hall : forall kf, In kf (m_flowList scenario_finished) ->
                            IsFinished (D := float) (snd kf) = true).
  { intros kf [<-|[]]. reflexivity. }
  destruct (UpdateInfo_no_active_flow scenario_finished Hall) as (Hw & _ & Hc).
  split.
  - rewrite Hw. reflexivity.
  - rewrite Hc. reflexivity.
Defined.







